(** * api/python/common/util.py: a background event loop and a blocking
      submit-and-wait helper

    The module is two functions of glue over [asyncio], [threading] and
    [concurrent.futures].  The development has three layers:

    - [Py]: the Python values and exceptions the module handles;
    - [Lib]: a state-passing model of the library calls the module makes
      (event loops, threads, thread-safe futures, a logical clock);
    - [Util]: the module itself, transcribed call by call.

    The scheduler's own work is not executed here.  A coroutine carries the
    way its pending future resolves (after how many ticks, with which
    outcome, or never); that is the environment's part, and every statement
    below quantifies over it.  Time is a logical clock in ticks (a
    millisecond in the scenarios); a timeout is a number of ticks, or
    [None].  The library is the one of Python 3.11, where
    [concurrent.futures.TimeoutError], [asyncio.TimeoutError] and the
    builtin [TimeoutError] are one class. *)

From stdpp Require Import base list strings.

(** ** Python values and exceptions *)

Module Py.

#[local] Open Scope string_scope.

Inductive pyval :=
| PyNone
| PyBool (b : bool)
| PyInt (z : Z)
| PyStr (s : string).

(** An exception object: its class, the proper ancestors of that class
    (the rest of its MRO) and its message. *)
Record exn := Exn {
  exn_class : string;
  exn_bases : list string;
  exn_msg : string }.

(** [isinstance(e, cls)], which is what an [except cls:] clause tests. *)
Definition isinstance (e : exn) (cls : string) : bool :=
  bool_decide (cls ∈ exn_class e :: exn_bases e).

(** The class the source names [concurrent.futures.TimeoutError]. *)
Definition cf_TimeoutError : string := "concurrent.futures.TimeoutError".
Definition cf_CancelledError : string := "concurrent.futures.CancelledError".
Definition cf_InvalidStateError : string :=
  "concurrent.futures.InvalidStateError".
Definition asyncio_CancelledError : string := "asyncio.CancelledError".
Definition asyncio_InvalidStateError : string := "asyncio.InvalidStateError".
Definition SystemExit : string := "SystemExit".
Definition KeyboardInterrupt : string := "KeyboardInterrupt".
Definition StopIteration : string := "StopIteration".

Definition std_bases : list string := ["Exception"; "BaseException"].

(** [TimeoutError()], as [Future.result] raises it. *)
Definition TimeoutError_ : exn := Exn cf_TimeoutError std_bases "".
(** [CancelledError()], as [Future.result] raises it. *)
Definition CancelledError_ : exn := Exn cf_CancelledError std_bases "".
Definition RuntimeError_ (msg : string) : exn := Exn "RuntimeError" std_bases msg.
Definition AttributeError_ (msg : string) : exn :=
  Exn "AttributeError" std_bases msg.
(** [OverflowError(msg)], as a lock raises it for a timeout it cannot
    take. *)
Definition OverflowError_ (msg : string) : exn :=
  Exn "OverflowError" ("ArithmeticError" :: std_bases) msg.

End Py.
Export Py.

(** ** The runtime the module runs on *)

Module Lib.

(** Handles are positions in the world's tables. *)
Abbreviation loop_id := nat (only parsing).
Abbreviation thread_id := nat (only parsing).
Abbreviation fut_id := nat (only parsing).

(** How a piece of work ends: it returns a value, or it lets an
    exception out (for a coroutine never a [StopIteration], which is how
    it returns). *)
Inductive outcome :=
| Returned (v : pyval)
| Raised (e : exn).

(** A coroutine object, by what it does once it is scheduled on a loop:
    it ends [co_delay] ticks after the submission with [co_outcome];
    [None] is a coroutine that never ends, or that no thread ever runs.
    What becomes of the future it is chained to is [hand_off] below. *)
Record coro := Coro {
  co_delay : option N;
  co_outcome : outcome }.

(** An event loop: [lp_scheduled] lists the futures of the callbacks
    handed to it with [call_soon_threadsafe], oldest first. *)
Record event_loop := EventLoop {
  lp_closed : bool;
  lp_stopping : bool;
  lp_scheduled : list fut_id }.

(** What a thread's target does, as the sequence of its library calls. *)
Inductive thread_cmd :=
| SetEventLoop (l : loop_id)
| LoopRunForever (l : loop_id).

Definition thread_prog := list thread_cmd.

Record thread := MkThread {
  th_run : thread_prog;
  th_daemon : bool;
  th_started : bool }.

(** A [concurrent.futures.Future] made by [run_coroutine_threadsafe]. *)
Record future := Future {
  fu_coro : coro;
  fu_loop : loop_id;
  fu_created : N;
  fu_cancelled : bool }.

(** The library calls, as they are logged in order. *)
Inductive call :=
| Call_new_event_loop
| Call_Thread (body : thread_prog) (daemon : bool)
| Call_Thread_start (t : thread_id)
| Call_run_coroutine_threadsafe (c : coro) (l : loop_id)
| Call_Future_result (f : fut_id) (timeout : option N)
| Call_Future_cancel (f : fut_id)
| Call_loop_stop (l : loop_id).

(** What the operating system refuses: the exception with which
    allocating a loop, or starting a thread, fails while the condition
    lasts. *)
Record faults := Faults {
  fault_new_event_loop : option exn;
  fault_thread_start : option exn }.

Definition no_faults : faults := Faults None None.

(** [w_timeout_max] is [threading.TIMEOUT_MAX], the longest timeout a
    lock takes on the platform, in ticks. *)
Record world := World {
  w_clock : N;
  w_loops : list event_loop;
  w_threads : list thread;
  w_futures : list future;
  w_trace : list call;
  w_faults : faults;
  w_timeout_max : N }.

(** [threading.TIMEOUT_MAX] of a 64-bit Linux, 9223372036 seconds, in
    milliseconds. *)
Definition linux_timeout_max : N := 9223372036000.

Definition empty_world : world :=
  World 0 [] [] [] [] no_faults linux_timeout_max.

(** *** The monad: state, exceptions and blocking *)

Inductive result (A : Type) :=
| Ret (a : A) (w : world)
| Exc (e : exn) (w : world)
| Blocked (w : world).
Arguments Ret {A} a w.
Arguments Exc {A} e w.
Arguments Blocked {A} w.

Definition M (A : Type) : Type := world → result A.

#[global] Instance M_ret : MRet M := λ A a w, Ret a w.
#[global] Instance M_bind : MBind M := λ A B f m w,
  match m w with
  | Ret a w' => f a w'
  | Exc e w' => Exc e w'
  | Blocked w' => Blocked w'
  end.

(** The world a call leaves behind, however it ends. *)
Definition final {A} (r : result A) : world :=
  match r with
  | Ret _ w | Exc _ w | Blocked w => w
  end.

Definition raise {A} (e : exn) : M A := λ w, Exc e w.
Definition block {A} : M A := λ w, Blocked w.
Definition gets {A} (f : world → A) : M A := λ w, Ret (f w) w.
Definition modify (f : world → world) : M unit := λ w, Ret tt (f w).

(** [try: body  except cls: handler] *)
Definition try_except {A} (body : M A) (cls : string) (handler : M A) : M A :=
  λ w, match body w with
       | Exc e w' => if isinstance e cls then handler w' else Exc e w'
       | r => r
       end.

Definition set_clock (n : N) (w : world) : world :=
  World n (w_loops w) (w_threads w) (w_futures w) (w_trace w) (w_faults w)
        (w_timeout_max w).
Definition set_loops (ls : list event_loop) (w : world) : world :=
  World (w_clock w) ls (w_threads w) (w_futures w) (w_trace w) (w_faults w)
        (w_timeout_max w).
Definition set_threads (ts : list thread) (w : world) : world :=
  World (w_clock w) (w_loops w) ts (w_futures w) (w_trace w) (w_faults w)
        (w_timeout_max w).
Definition set_futures (fs : list future) (w : world) : world :=
  World (w_clock w) (w_loops w) (w_threads w) fs (w_trace w) (w_faults w)
        (w_timeout_max w).

Definition add_trace (c : call) (w : world) : world :=
  World (w_clock w) (w_loops w) (w_threads w) (w_futures w)
        (w_trace w ++ [c]) (w_faults w) (w_timeout_max w).

Definition log (c : call) : M unit := modify (add_trace c).

Definition get_loop (l : loop_id) : M event_loop :=
  λ w, match w_loops w !! l with
       | Some lp => Ret lp w
       | None => Exc (AttributeError_ "not an event loop") w
       end.

Definition get_thread (t : thread_id) : M thread :=
  λ w, match w_threads w !! t with
       | Some th => Ret th w
       | None => Exc (AttributeError_ "not a thread") w
       end.

Definition get_future (f : fut_id) : M future :=
  λ w, match w_futures w !! f with
       | Some fu => Ret fu w
       | None => Exc (AttributeError_ "not a future") w
       end.

(** A handle of a loop that exists and is not closed. *)
Definition loop_open (w : world) (l : loop_id) : bool :=
  match w_loops w !! l with
  | Some lp => negb (lp_closed lp)
  | None => false
  end.

Definition scheduled_on (w : world) (l : loop_id) : list fut_id :=
  match w_loops w !! l with
  | Some lp => lp_scheduled lp
  | None => []
  end.

(** *** asyncio *)

(** [asyncio.new_event_loop()] *)
Definition new_event_loop : M loop_id :=
  log Call_new_event_loop;;
  fl ← gets w_faults;
  match fault_new_event_loop fl with
  | Some e => raise e
  | None =>
      l ← gets (λ w, length (w_loops w));
      modify (λ w, set_loops (w_loops w ++ [EventLoop false false []]) w);;
      mret l
  end.

(** [loop.stop()]; nothing in the module calls it. *)
Definition loop_stop (l : loop_id) : M unit :=
  log (Call_loop_stop l);;
  lp ← get_loop l;
  modify (λ w, set_loops
    (<[l := EventLoop (lp_closed lp) true (lp_scheduled lp)]> (w_loops w)) w).

(** [asyncio.run_coroutine_threadsafe(coro, loop)]: a fresh future, and
    one callback on the loop that will run the coroutine and resolve the
    future.  [call_soon_threadsafe] refuses a closed loop. *)
Definition run_coroutine_threadsafe (c : coro) (l : loop_id) : M fut_id :=
  log (Call_run_coroutine_threadsafe c l);;
  lp ← get_loop l;
  if lp_closed lp then raise (RuntimeError_ "Event loop is closed")
  else
    f ← gets (λ w, length (w_futures w));
    now ← gets w_clock;
    modify (λ w, set_futures (w_futures w ++ [Future c l now false]) w);;
    modify (λ w, set_loops
      (<[l := EventLoop (lp_closed lp) (lp_stopping lp)
                        (lp_scheduled lp ++ [f])]> (w_loops w)) w);;
    mret f.

(** *** threading *)

(** [Thread(target=target, args=(arg,), daemon=daemon)] *)
Definition Thread (target : loop_id → thread_prog) (arg : loop_id)
    (daemon : bool) : M thread_id :=
  log (Call_Thread (target arg) daemon);;
  t ← gets (λ w, length (w_threads w));
  modify (λ w, set_threads
    (w_threads w ++ [MkThread (target arg) daemon false]) w);;
  mret t.

(** [thread.start()] *)
Definition Thread_start (t : thread_id) : M unit :=
  log (Call_Thread_start t);;
  th ← get_thread t;
  if th_started th then raise (RuntimeError_ "threads can only be started once")
  else
    fl ← gets w_faults;
    match fault_thread_start fl with
    | Some e => raise e
    | None =>
        modify (λ w, set_threads
          (<[t := MkThread (th_run th) (th_daemon th) true]> (w_threads w)) w)
    end.

(** A started thread that is not a daemon keeps the interpreter from
    exiting: the shutdown joins it. *)
Definition blocks_exit (th : thread) : bool :=
  th_started th && negb (th_daemon th).

Definition process_may_exit (w : world) : bool :=
  forallb (λ th, negb (blocks_exit th)) (w_threads w).

(** *** The task and the hand-off to the future *)

Inductive fut_state :=
| Pending
| Cancelled
| Finished (o : outcome).

(** An exception that goes through the task's step and the callback's
    handle and ends [run_forever]: the thread of the loop is over, and
    what was scheduled on the loop never runs. *)
Definition stops_loop (e : exn) : bool :=
  isinstance e KeyboardInterrupt || isinstance e SystemExit.

(** [_convert_future_exc]: an exception whose class is exactly one of the
    three of [concurrent.futures] is made anew in the class asyncio has
    for it. *)
Definition convert_future_exc (e : exn) : exn :=
  if decide (exn_class e = cf_CancelledError)
  then Exn asyncio_CancelledError ["BaseException"%string] (exn_msg e)
  else if decide (exn_class e = cf_TimeoutError)
  then Exn cf_TimeoutError (exn_bases e) (exn_msg e)
  else if decide (exn_class e = cf_InvalidStateError)
  then Exn asyncio_InvalidStateError std_bases (exn_msg e)
  else e.

(** What the end of the coroutine makes of the future.  The task's step
    takes the exceptions in this order: an [asyncio.CancelledError]
    cancels the task, and the chained future with it; a
    [KeyboardInterrupt] or [SystemExit] stops the loop before the callback
    that would resolve the future runs, so the future stays pending; any
    other exception is copied to the future through
    [_convert_future_exc]; a value is copied as it is. *)
Definition hand_off (o : outcome) : fut_state :=
  match o with
  | Returned v => Finished (Returned v)
  | Raised e =>
      if isinstance e asyncio_CancelledError then Cancelled
      else if stops_loop e then Pending
      else Finished (Raised (convert_future_exc e))
  end.

(** After how many ticks the future of a coroutine leaves the pending
    state, if ever. *)
Definition resolve_delay (c : coro) : option N :=
  match co_delay c, hand_off (co_outcome c) with
  | Some d, (Cancelled | Finished _) => Some d
  | _, _ => None
  end.

(** *** concurrent.futures *)

Definition resolve_time (fu : future) : option N :=
  match resolve_delay (fu_coro fu) with
  | Some d => Some (fu_created fu + d)%N
  | None => None
  end.

Definition future_state (now : N) (fu : future) : fut_state :=
  if fu_cancelled fu then Cancelled
  else match resolve_time fu with
       | Some r => if bool_decide (r ≤ now)%N
                   then hand_off (co_outcome (fu_coro fu))
                   else Pending
       | None => Pending
       end.

(** [self._condition.wait(timeout)] on a pending future.  Without a
    timeout the caller sleeps until the future is resolved, for ever if
    it never is.  A timeout that is not positive makes no wait at all.  A
    positive one is given to the lock, which refuses it with an
    [OverflowError] when it is above [threading.TIMEOUT_MAX]; otherwise
    the caller sleeps until the future is resolved or the timeout has
    elapsed, whichever is first. *)
Definition Condition_wait (fu : future) (timeout : option N) : M unit :=
  now ← gets w_clock;
  tmax ← gets w_timeout_max;
  match timeout with
  | None =>
      match resolve_time fu with
      | Some r => modify (set_clock r)
      | None => block
      end
  | Some t =>
      if bool_decide (t = 0)%N then mret tt
      else if bool_decide (tmax < t)%N
      then raise (OverflowError_ "timeout value is too large")
      else match resolve_time fu with
           | Some r => modify (set_clock (N.min r (now + t)))
           | None => modify (set_clock (now + t)%N)
           end
  end.

(** The two tests of [Future.result], before and after the wait. *)
Definition deliver (st : fut_state) : option (M pyval) :=
  match st with
  | Cancelled => Some (raise CancelledError_)
  | Finished (Returned v) => Some (mret v)
  | Finished (Raised e) => Some (raise e)
  | Pending => None
  end.

(** [future.result(timeout)] *)
Definition Future_result (f : fut_id) (timeout : option N) : M pyval :=
  log (Call_Future_result f timeout);;
  fu ← get_future f;
  now ← gets w_clock;
  match deliver (future_state now fu) with
  | Some k => k
  | None =>
      Condition_wait fu timeout;;
      now' ← gets w_clock;
      match deliver (future_state now' fu) with
      | Some k => k
      | None => raise TimeoutError_
      end
  end.

(** [future.cancel()]; nothing in the module calls it. *)
Definition Future_cancel (f : fut_id) : M bool :=
  log (Call_Future_cancel f);;
  fu ← get_future f;
  now ← gets w_clock;
  match future_state now fu with
  | Finished _ => mret false
  | Cancelled => mret true
  | Pending =>
      modify (λ w, set_futures
        (<[f := Future (fu_coro fu) (fu_loop fu) (fu_created fu) true]>
           (w_futures w)) w);;
      mret true
  end.

(** *** contextlib *)

(** A generator function with one [yield] that is not inside a [try]:
    the code before the [yield], with the value yielded, and the code
    after it.  An exception of the code before the [yield] comes out of
    [next] as it is. *)
Record generator (Y : Type) := Generator {
  gen_before : M Y;
  gen_after : M unit }.
Arguments Generator {Y} gen_before gen_after.
Arguments gen_before {Y} g.
Arguments gen_after {Y} g.

(** [@contextmanager]: [__enter__] runs the generator to its [yield]. *)
Definition cm_enter {Y} (g : generator Y) : M Y := gen_before g.

(** [__exit__], which answers whether the exception is suppressed.
    Resumed normally the generator runs to its end.  An exception of the
    [with] body is thrown in at the [yield], where nothing catches it: it
    comes out of the generator at once and is not suppressed. *)
Definition cm_exit {Y} (g : generator Y) (exc : option exn) : M bool :=
  match exc with
  | None => gen_after g;; mret false
  | Some e => mret false
  end.

(** [with g as y: body y]; the answer is [None] when the body raised
    and the manager suppressed the exception. *)
Definition with_ {Y A} (g : generator Y) (body : Y → M A) : M (option A) :=
  y ← cm_enter g;
  ((λ w, match body y w with
         | Ret a w' => (cm_exit g None;; mret (Some a)) w'
         | Exc e w' =>
             (suppress ← cm_exit g (Some e);
              if suppress : bool then mret None else raise e) w'
         | Blocked w' => Blocked w'
         end) : M (option A)).

(** *** Running a thread's target *)

(** The thread's side: its current event loop and what is left of its
    target. *)
Record thread_ctx := ThreadCtx {
  tc_event_loop : option loop_id;
  tc_pc : thread_prog }.

Definition thread_begin (th : thread) : thread_ctx := ThreadCtx None (th_run th).

Definition is_stopping (w : world) (l : loop_id) : bool :=
  match w_loops w !! l with
  | Some lp => lp_stopping lp
  | None => true
  end.

(** One step of a thread: [set_event_loop] returns at once;
    [run_forever] runs one iteration of the loop and leaves only when a
    stop was requested. *)
Definition thread_step (w : world) (c : thread_ctx) : thread_ctx :=
  match tc_pc c with
  | [] => c
  | SetEventLoop l :: k => ThreadCtx (Some l) k
  | LoopRunForever l :: k =>
      if is_stopping w l then ThreadCtx (tc_event_loop c) k else c
  end.

Definition thread_steps (n : nat) (w : world) (c : thread_ctx) : thread_ctx :=
  Nat.iter n (thread_step w) c.

End Lib.
Export Lib.

(** ** The module *)

Module Util.

(** [def run_forever(loop)], the nested target of the thread. *)
Definition run_forever (loop : loop_id) : thread_prog :=
  [SetEventLoop loop; LoopRunForever loop].

(** [@contextmanager def background_thread_loop()] *)
Definition background_thread_loop : generator loop_id :=
  Generator
    (_loop ← new_event_loop;
     _thread ← Thread run_forever _loop true;
     Thread_start _thread;;
     mret _loop)
    (mret tt).

(** [def run_async(coro, loop, timeout=None)] *)
Definition run_async (coro : coro) (loop : loop_id) (timeout : option N)
    : M (pyval * bool) :=
  fut ← run_coroutine_threadsafe coro loop;
  try_except
    (v ← Future_result fut timeout; mret (v, true))
    cf_TimeoutError
    (mret (PyNone, false)).

End Util.
Export Util.


(** ** Vocabulary of the statements *)

Module Obs.

(** The world right after a successful [run_coroutine_threadsafe]. *)
Definition submitted (c : coro) (l : loop_id) (lp : event_loop) (w : world)
    : world :=
  World (w_clock w)
    (<[l := EventLoop (lp_closed lp) (lp_stopping lp)
                      (lp_scheduled lp ++ [length (w_futures w)])]> (w_loops w))
    (w_threads w)
    (w_futures w ++ [Future c l (w_clock w) false])
    (w_trace w ++ [Call_run_coroutine_threadsafe c l])
    (w_faults w)
    (w_timeout_max w).

(** The work ends within the wait: always when there is no timeout, and
    no later than the deadline when there is one. *)
Definition in_time (d : N) (timeout : option N) : bool :=
  match timeout with
  | None => true
  | Some t => bool_decide (d ≤ t)%N
  end.

(** The future of the work is still unresolved [t] ticks after the
    submission. *)
Definition pending_after (c : coro) (t : N) : bool :=
  match resolve_delay c with
  | Some d => bool_decide (t < d)%N
  | None => true
  end.

(** A timeout the wait takes: none, or one no longer than
    [threading.TIMEOUT_MAX]. *)
Definition wait_accepted (w : world) (timeout : option N) : bool :=
  match timeout with
  | None => true
  | Some t => bool_decide (t ≤ w_timeout_max w)%N
  end.

(** The wait is refused: the timeout is above [threading.TIMEOUT_MAX]
    and the future is not resolved when the call is made. *)
Definition overflows (w : world) (c : coro) (timeout : option N) : bool :=
  match timeout with
  | None => false
  | Some t => bool_decide (w_timeout_max w < t)%N && pending_after c 0
  end.

(** How long the caller of [run_async] waits: not at all when the wait
    is refused, else to the resolution of the future or to the deadline,
    whichever is first. *)
Definition wait_ticks (w : world) (c : coro) (timeout : option N) : N :=
  if overflows w c timeout then 0%N
  else match resolve_delay c, timeout with
       | Some d, Some t => N.min d t
       | Some d, None => d
       | None, Some t => t
       | None, None => 0%N
       end.

(** An exception of the work that reaches the future as it is: it does
    not cancel the task, does not stop the loop, and is not of a class
    that the hand-off makes anew in another class. *)
Definition delivered_unchanged (e : exn) : bool :=
  negb (isinstance e asyncio_CancelledError) &&
  negb (stops_loop e) &&
  negb (isinstance e StopIteration) &&
  bool_decide (exn_class e ≠ cf_CancelledError) &&
  bool_decide (exn_class e ≠ cf_InvalidStateError).

(** The world when the wait of [run_async] is over, at time [n]. *)
Definition waited (c : coro) (l : loop_id) (lp : event_loop)
    (timeout : option N) (n : N) (w : world) : world :=
  set_clock n
    (add_trace (Call_Future_result (length (w_futures w)) timeout)
       (submitted c l lp w)).

(** What [run_async] makes of the state in which the wait leaves the
    future. *)
Definition after_wait (st : fut_state) (w : world) : result (pyval * bool) :=
  match st with
  | Finished (Returned v) => Ret (v, true) w
  | Finished (Raised e) =>
      if isinstance e cf_TimeoutError then Ret (PyNone, false) w else Exc e w
  | Cancelled => Exc CancelledError_ w
  | Pending => Ret (PyNone, false) w
  end.

(** What a call returned, if it returned. *)
Definition returned {A} (r : result A) : option A :=
  match r with
  | Ret a _ => Some a
  | _ => None
  end.

(** The exception a call raised, if it raised. *)
Definition raised {A} (r : result A) : option exn :=
  match r with
  | Exc e _ => Some e
  | _ => None
  end.

(** The world after one acquisition in an empty process. *)
Definition hosted : world := final (cm_enter background_thread_loop empty_world).

(** The spec's scenario: sleep 50 ticks, then return 42. *)
Definition sleep_then_42 : coro := Coro (Some 50%N) (Returned (PyInt 42)).

(** A second scenario: sleep 20 ticks, then return 7. *)
Definition sleep_then_7 : coro := Coro (Some 20%N) (Returned (PyInt 7)).

(** Sleep 50 ticks, then return [None]. *)
Definition sleep_then_none : coro := Coro (Some 50%N) (Returned PyNone).

(** A coroutine that never ends. *)
Definition never_ends : coro := Coro None (Returned PyNone).

(** A timeout of ten thousand million seconds, above
    [threading.TIMEOUT_MAX]. *)
Definition far_timeout : N := 10000000000000.

(** A user exception class derived from [concurrent.futures.TimeoutError],
    and a coroutine that raises it after 5 ticks.  The hand-off from the
    task to the future leaves an exception of a derived class as it is. *)
Definition UpstreamTimeout : exn :=
  Exn "UpstreamTimeout" (cf_TimeoutError :: std_bases) "upstream timed out".
Definition upstream_times_out : coro := Coro (Some 5%N) (Raised UpstreamTimeout).

Definition ValueError_ (msg : string) : exn := Exn "ValueError" std_bases msg.
Definition rejects_input : coro :=
  Coro (Some 5%N) (Raised (ValueError_ "bad input")).

(** A coroutine that calls [sys.exit()] after 5 ticks. *)
Definition SystemExit_ : exn := Exn SystemExit ["BaseException"%string] "".
Definition exits : coro := Coro (Some 5%N) (Raised SystemExit_).

(** The exception with which an acquisition fails, if the system refuses
    the loop or the thread. *)
Definition acquisition_fault (fl : faults) : option exn :=
  match fault_new_event_loop fl with
  | Some e => Some e
  | None => fault_thread_start fl
  end.

(** The world a successful acquisition leaves. *)
Definition acquired (w : world) : world :=
  let l := length (w_loops w) in
  let t := length (w_threads w) in
  World (w_clock w)
    (w_loops w ++ [EventLoop false false []])
    (w_threads w ++ [MkThread (run_forever l) true true])
    (w_futures w)
    (w_trace w ++ [Call_new_event_loop; Call_Thread (run_forever l) true;
                   Call_Thread_start t])
    (w_faults w)
    (w_timeout_max w).

(** The world an acquisition leaves when the system refuses the loop, or
    the thread: in the second case the loop is allocated and the thread
    object made, but nothing runs. *)
Definition refused (w : world) : world :=
  let l := length (w_loops w) in
  let t := length (w_threads w) in
  match fault_new_event_loop (w_faults w) with
  | Some _ => add_trace Call_new_event_loop w
  | None =>
      World (w_clock w)
        (w_loops w ++ [EventLoop false false []])
        (w_threads w ++ [MkThread (run_forever l) true false])
        (w_futures w)
        (w_trace w ++ [Call_new_event_loop; Call_Thread (run_forever l) true;
                       Call_Thread_start t])
        (w_faults w)
        (w_timeout_max w)
  end.

(** A scope that submits the scenario's work and waits 200 ticks. *)
Definition submit_and_wait (l : loop_id) : M (pyval * bool) :=
  run_async sleep_then_42 l (Some 200%N).

Definition with_faults (fl : faults) (w : world) : world :=
  World (w_clock w) (w_loops w) (w_threads w) (w_futures w) (w_trace w) fl
        (w_timeout_max w).

Definition OSError_ (msg : string) : exn := Exn "OSError" std_bases msg.

(** A process out of file descriptors, and one out of threads. *)
Definition no_descriptors : world :=
  with_faults (Faults (Some (OSError_ "Too many open files")) None) empty_world.
Definition no_threads : world :=
  with_faults (Faults None (Some (RuntimeError_ "can't start new thread")))
    empty_world.

(** A process whose only loop was closed. *)
Definition closed_world : world :=
  World 0 [EventLoop true false []] [] [] [] no_faults linux_timeout_max.

End Obs.
Export Obs.

(** Unfold the monad and the state accessors, then compute. *)
Ltac munfold :=
  unfold mbind, M_bind, mret, M_ret, log, get_loop, get_thread, get_future,
    gets, modify, raise, block, set_clock, set_loops, set_threads,
    set_futures, add_trace in *;
  cbn in *.

(** Unfold what [Future.result] is made of, down to the resolution delay
    of the coroutine and the hand-off. *)
Ltac unfold_result :=
  unfold try_except, Future_result, Condition_wait, future_state, resolve_time.

(** ** The library model: basic facts *)

Lemma bind_unfold {A B} (m : M A) (k : A → M B) (w : world) :
  (m ≫= k) w =
  match m w with
  | Ret a w' => k a w'
  | Exc e w' => Exc e w'
  | Blocked w' => Blocked w'
  end.
Proof. reflexivity. Qed.

Lemma loop_open_lookup (w : world) (l : loop_id) :
  loop_open w l = true →
  ∃ lp, w_loops w !! l = Some lp ∧ lp_closed lp = false.
Proof.
  unfold loop_open. destruct (w_loops w !! l) as [lp|]; [|done].
  intros H. exists lp. split; [done|]. by destruct (lp_closed lp).
Qed.

Lemma isinstance_TimeoutError : isinstance TimeoutError_ cf_TimeoutError = true.
Proof. reflexivity. Qed.

(** The hand-off. *)
Lemma resolve_delay_Some (c : coro) (d : N) :
  resolve_delay c = Some d ↔
  co_delay c = Some d ∧ hand_off (co_outcome c) ≠ Pending.
Proof.
  unfold resolve_delay.
  destruct (co_delay c) as [d'|], (hand_off (co_outcome c));
    split; try done; try (by intros [? ?]); by intros [= ->].
Qed.

Lemma resolve_delay_returned (c : coro) (d : N) (v : pyval) :
  co_delay c = Some d → co_outcome c = Returned v → resolve_delay c = Some d.
Proof. intros Hd Ho. apply resolve_delay_Some. by rewrite Ho. Qed.

Lemma convert_delivered (e : exn) :
  delivered_unchanged e = true → hand_off (Raised e) = Finished (Raised e).
Proof.
  unfold delivered_unchanged, hand_off, convert_future_exc.
  intros H.
  apply andb_true_iff in H as [H H2]. apply andb_true_iff in H as [H H1].
  apply andb_true_iff in H as [H _]. apply andb_true_iff in H as [Hc Hs].
  apply bool_decide_eq_true in H1, H2.
  apply negb_true_iff in Hc, Hs. rewrite Hc, Hs.
  rewrite decide_False by done.
  rewrite (decide_False (P := exn_class e = cf_InvalidStateError)) by done.
  destruct (decide (exn_class e = cf_TimeoutError)) as [Heq|]; [|done].
  destruct e as [cls bases msg]. cbn in *. by subst.
Qed.

(** A [TimeoutError] instance in the future was one in the work. *)
Lemma hand_off_timeout (e e' : exn) :
  hand_off (Raised e) = Finished (Raised e') →
  isinstance e' cf_TimeoutError = true →
  e' = e.
Proof.
  unfold hand_off, convert_future_exc.
  destruct (isinstance e asyncio_CancelledError); [done|].
  destruct (stops_loop e); [done|].
  intros [= <-].
  destruct (decide (exn_class e = cf_CancelledError)); [done|].
  destruct (decide (exn_class e = cf_TimeoutError)) as [Heq|].
  { intros _. destruct e as [cls bases msg]. cbn in *. by subst. }
  by destruct (decide (exn_class e = cf_InvalidStateError)).
Qed.

Lemma pending_after_0 (c : coro) (d : N) :
  resolve_delay c = Some d → pending_after c 0 = bool_decide (0 < d)%N.
Proof. unfold pending_after. by intros ->. Qed.

(** A cancelled future stays cancelled, and a thread leaves
    [run_forever] once its loop was asked to stop: the calls the module
    never makes do change the world. *)
Lemma Future_cancel_pending (w : world) (f : fut_id) (fu : future) :
  w_futures w !! f = Some fu →
  future_state (w_clock w) fu = Pending →
  ∃ w' fu', Future_cancel f w = Ret true w' ∧
            w_futures w' !! f = Some fu' ∧
            ∀ now, future_state now fu' = Cancelled.
Proof.
  intros Hf Hp. unfold Future_cancel. munfold. rewrite Hf. cbn. rewrite Hp.
  cbn. eexists _, (Future (fu_coro fu) (fu_loop fu) (fu_created fu) true).
  split_and!; [done| |done].
  cbn. apply list_lookup_insert_eq. by eapply lookup_lt_Some.
Qed.

Lemma loop_stop_ends_run_forever (w : world) (l : loop_id) (lp : event_loop) :
  w_loops w !! l = Some lp →
  ∃ w', loop_stop l w = Ret tt w' ∧
        thread_steps 2 w' (ThreadCtx None (run_forever l)) = ThreadCtx (Some l) [].
Proof.
  intros Hl. unfold loop_stop. munfold. rewrite Hl. cbn.
  eexists. split; [done|].
  unfold thread_steps, thread_step, is_stopping. cbn.
  rewrite list_lookup_insert_eq by (by eapply lookup_lt_Some). done.
Qed.

Lemma run_forever_steps (w : world) (l : loop_id) (n : nat) :
  is_stopping w l = false →
  thread_steps (S n) w (ThreadCtx None (run_forever l)) =
  ThreadCtx (Some l) [LoopRunForever l].
Proof.
  intros Hs. induction n as [|n IH]; [done|].
  unfold thread_steps in *. rewrite Nat.iter_succ, IH.
  unfold thread_step. cbn. by rewrite Hs.
Qed.

(** ** run_async on an open loop *)

Section OpenLoop.

Variables (w : world) (c : coro) (l : loop_id) (lp : event_loop).
Hypothesis Hl : w_loops w !! l = Some lp.
Hypothesis Hc : lp_closed lp = false.

Lemma run_coroutine_threadsafe_open :
  run_coroutine_threadsafe c l w = Ret (length (w_futures w)) (submitted c l lp w).
Proof.
  unfold run_coroutine_threadsafe. munfold.
  rewrite Hl. cbn. unfold submitted. rewrite Hc. reflexivity.
Qed.

(** The future resolves within the wait, and the wait is not refused. *)
Lemma run_async_resolved (timeout : option N) (d : N) :
  resolve_delay c = Some d → in_time d timeout = true →
  overflows w c timeout = false →
  run_async c l timeout w =
  after_wait (hand_off (co_outcome c))
             (waited c l lp timeout (w_clock w + d) w).
Proof.
  intros Hd Ht Ho.
  pose proof (proj1 (resolve_delay_Some c d) Hd) as [_ Hp].
  unfold run_async.
  rewrite bind_unfold, run_coroutine_threadsafe_open. unfold_result.
  munfold. rewrite list_lookup_middle by done. cbn. rewrite Hd. cbn.
  unfold waited, submitted, after_wait. munfold.
  case_bool_decide as Hnow.
  - assert (d = 0%N) as -> by lia. rewrite N.add_0_r.
    destruct (hand_off (co_outcome c)) as [| |[v|e]]; cbn; try done;
      by destruct (isinstance e cf_TimeoutError).
  - destruct timeout as [t|]; cbn in *.
    + apply bool_decide_eq_true in Ht.
      rewrite bool_decide_false by lia.
      rewrite (pending_after_0 c d Hd), (bool_decide_true (0 < d)%N) in Ho by lia.
      rewrite andb_true_r in Ho. rewrite Ho. cbn.
      rewrite N.min_l by lia. rewrite bool_decide_true by lia.
      destruct (hand_off (co_outcome c)) as [| |[v|e]]; cbn; try done;
        by destruct (isinstance e cf_TimeoutError).
    + rewrite bool_decide_true by lia.
      destruct (hand_off (co_outcome c)) as [| |[v|e]]; cbn; try done;
        by destruct (isinstance e cf_TimeoutError).
Qed.

(** The timeout elapses first. *)
Lemma run_async_timed_out (t : N) :
  pending_after c t = true → (t ≤ w_timeout_max w)%N →
  run_async c l (Some t) w =
  Ret (PyNone, false) (waited c l lp (Some t) (w_clock w + t) w).
Proof.
  intros Hp Hmax. unfold run_async.
  rewrite bind_unfold, run_coroutine_threadsafe_open. unfold_result.
  munfold. rewrite list_lookup_middle by done. cbn.
  unfold waited, submitted, pending_after in *. munfold.
  destruct (resolve_delay c) as [d|]; cbn.
  - apply bool_decide_eq_true in Hp.
    rewrite bool_decide_false by lia. cbn.
    case_bool_decide as H0; cbn.
    + subst t. rewrite bool_decide_false by lia. cbn. by rewrite N.add_0_r.
    + rewrite bool_decide_false by lia. cbn.
      rewrite N.min_r by lia. rewrite bool_decide_false by lia. done.
  - case_bool_decide as H0; cbn.
    + subst t. by rewrite N.add_0_r.
    + rewrite bool_decide_false by lia. done.
Qed.

(** The lock refuses the timeout. *)
Lemma run_async_overflow (t : N) :
  overflows w c (Some t) = true →
  run_async c l (Some t) w =
  Exc (OverflowError_ "timeout value is too large")
      (waited c l lp (Some t) (w_clock w) w).
Proof.
  unfold overflows. intros [Hmax Hp]%andb_true_iff.
  apply bool_decide_eq_true in Hmax. unfold run_async.
  rewrite bind_unfold, run_coroutine_threadsafe_open. unfold_result.
  munfold. rewrite list_lookup_middle by done. cbn.
  unfold waited, submitted, pending_after in *. munfold.
  assert (t ≠ 0%N) as Ht0 by lia.
  destruct (resolve_delay c) as [d|]; cbn.
  - apply bool_decide_eq_true in Hp.
    rewrite bool_decide_false by lia. cbn.
    rewrite (bool_decide_false (t = 0%N)) by done.
    rewrite bool_decide_true by done. cbn. by destruct w.
  - rewrite (bool_decide_false (t = 0%N)) by done.
    rewrite bool_decide_true by done. cbn. by destruct w.
Qed.

(** No timeout, and the future never resolves. *)
Lemma run_async_never :
  resolve_delay c = None →
  run_async c l None w = Blocked (waited c l lp None (w_clock w) w).
Proof.
  intros Hd. unfold run_async.
  rewrite bind_unfold, run_coroutine_threadsafe_open. unfold_result.
  munfold. rewrite list_lookup_middle by done. cbn. rewrite Hd. cbn.
  unfold waited, submitted. munfold. by destruct w.
Qed.

(** The four cases are all there are. *)
Lemma run_async_cases (timeout : option N) :
  (overflows w c timeout = true) ∨
  (overflows w c timeout = false ∧
   ((∃ d, resolve_delay c = Some d ∧ in_time d timeout = true) ∨
    (∃ t, timeout = Some t ∧ pending_after c t = true ∧
          (t ≤ w_timeout_max w)%N) ∨
    (timeout = None ∧ resolve_delay c = None))).
Proof.
  destruct (overflows w c timeout) eqn:Ho; [by left|]. right. split; [done|].
  destruct timeout as [t|]; cbn in Ho.
  - destruct (resolve_delay c) as [d|] eqn:Hd.
    + destruct (decide (d ≤ t)%N) as [Hle|Hgt].
      * left. exists d. split; [done|]. cbn. by apply bool_decide_eq_true.
      * right. left. exists t. split; [done|].
        assert (pending_after c t = true) as Hp.
        { unfold pending_after. rewrite Hd. apply bool_decide_eq_true. lia. }
        split; [done|].
        rewrite (pending_after_0 c d Hd), (bool_decide_true (0 < d)%N) in Ho
          by lia.
        rewrite andb_true_r in Ho. apply bool_decide_eq_false in Ho. lia.
    + right. left. exists t. unfold pending_after in *. rewrite Hd in *.
      rewrite andb_true_r in Ho. apply bool_decide_eq_false in Ho.
      split_and!; [done..|lia].
  - destruct (resolve_delay c) as [d|] eqn:Hd.
    + left. by exists d.
    + by right; right.
Qed.

(** However the call ends, it leaves the same world up to the clock. *)
Lemma run_async_final_at (timeout : option N) :
  final (run_async c l timeout w) =
  waited c l lp timeout (w_clock w + wait_ticks w c timeout) w.
Proof.
  unfold wait_ticks.
  destruct (run_async_cases timeout)
    as [Ho|[Ho [(d & Hd & Ht)|[(t & -> & Hp & Hmax)|[-> Hd]]]]]; rewrite Ho.
  - destruct timeout as [t|]; [|done].
    rewrite (run_async_overflow t Ho). cbn. by rewrite N.add_0_r.
  - rewrite (run_async_resolved timeout d Hd Ht Ho), Hd.
    assert (match timeout with Some t => d `min` t | None => d end = d)%N as ->.
    { destruct timeout as [t|]; [|done]. cbn in Ht.
      apply bool_decide_eq_true in Ht. lia. }
    unfold after_wait.
    destruct (hand_off (co_outcome c)) as [| |[v|e]]; try done;
      by destruct (isinstance e cf_TimeoutError).
  - rewrite (run_async_timed_out t Hp Hmax). cbn.
    unfold pending_after in Hp. destruct (resolve_delay c) as [d|]; [|done].
    apply bool_decide_eq_true in Hp. by rewrite N.min_r by lia.
  - rewrite (run_async_never Hd), Hd. cbn. by rewrite N.add_0_r.
Qed.

Lemma run_async_final (timeout : option N) :
  ∃ n, final (run_async c l timeout w) = waited c l lp timeout n w.
Proof. eexists. apply run_async_final_at. Qed.

Lemma waited_trace (timeout : option N) (n : N) :
  w_trace (waited c l lp timeout n w) =
  w_trace w ++ [Call_run_coroutine_threadsafe c l;
                Call_Future_result (length (w_futures w)) timeout].
Proof. cbn. by rewrite <- app_assoc. Qed.

Lemma waited_scheduled (timeout : option N) (n : N) :
  scheduled_on (waited c l lp timeout n w) l =
  scheduled_on w l ++ [length (w_futures w)].
Proof.
  unfold scheduled_on. cbn.
  rewrite list_lookup_insert_eq by (by eapply lookup_lt_Some).
  by rewrite Hl.
Qed.

(** [run_async] asks no loop to stop. *)
Lemma run_async_keeps_running (timeout : option N) (l' : loop_id) :
  is_stopping (final (run_async c l timeout w)) l' = is_stopping w l'.
Proof.
  rewrite run_async_final_at.
  unfold is_stopping. cbn.
  destruct (decide (l' = l)) as [->|Hne].
  - rewrite list_lookup_insert_eq by (by eapply lookup_lt_Some).
    by rewrite Hl.
  - by rewrite list_lookup_insert_ne.
Qed.

End OpenLoop.

Lemma after_wait_not_blocked (st : fut_state) (w w' : world) :
  after_wait st w ≠ Blocked w'.
Proof.
  destruct st as [| |[v|e]]; cbn; try done.
  by destruct (isinstance e cf_TimeoutError).
Qed.

Lemma after_wait_final (st : fut_state) (w : world) :
  final (after_wait st w) = w.
Proof.
  destruct st as [| |[v|e]]; cbn; try done.
  by destruct (isinstance e cf_TimeoutError).
Qed.

(** A closed loop refuses the work: nothing is enqueued and the
    [RuntimeError] of [call_soon_threadsafe] comes out of [run_async]. *)
Lemma run_async_closed_loop (w : world) (c : coro) (l : loop_id)
    (lp : event_loop) (timeout : option N) :
  w_loops w !! l = Some lp → lp_closed lp = true →
  run_async c l timeout w =
  Exc (RuntimeError_ "Event loop is closed")
      (add_trace (Call_run_coroutine_threadsafe c l) w).
Proof.
  intros Hl Hc. unfold run_async, run_coroutine_threadsafe, try_except.
  munfold. rewrite Hl. cbn. by rewrite Hc.
Qed.

Lemma run_async_missing_loop (w : world) (c : coro) (l : loop_id)
    (timeout : option N) :
  w_loops w !! l = None →
  run_async c l timeout w =
  Exc (AttributeError_ "not an event loop")
      (add_trace (Call_run_coroutine_threadsafe c l) w).
Proof.
  intros Hl. unfold run_async, run_coroutine_threadsafe, try_except.
  munfold. by rewrite Hl.
Qed.

Lemma run_async_not_open (w : world) (c : coro) (l : loop_id)
    (timeout : option N) :
  loop_open w l = false →
  ∃ e, run_async c l timeout w =
       Exc e (add_trace (Call_run_coroutine_threadsafe c l) w) ∧
       isinstance e cf_TimeoutError = false.
Proof.
  unfold loop_open. destruct (w_loops w !! l) as [lp|] eqn:Hl.
  - intros Hc. apply negb_false_iff in Hc.
    eexists. split; [by apply (run_async_closed_loop w c l lp)|done].
  - intros _. eexists. split; [by apply run_async_missing_loop|done].
Qed.

(** What a returned pair says about the work. *)
Lemma run_async_returned_inv (w : world) (c : coro) (l : loop_id)
    (timeout : option N) (v : pyval) (b : bool) :
  returned (run_async c l timeout w) = Some (v, b) →
  (b = true ∧ ∃ d, co_delay c = Some d ∧ in_time d timeout = true ∧
                   co_outcome c = Returned v) ∨
  (b = false ∧ v = PyNone ∧
   ((∃ t, timeout = Some t ∧ pending_after c t = true) ∨
    (∃ d e, co_delay c = Some d ∧ in_time d timeout = true ∧
            co_outcome c = Raised e ∧ isinstance e cf_TimeoutError = true))).
Proof.
  destruct (loop_open w l) eqn:Ho.
  2:{ destruct (run_async_not_open w c l timeout Ho) as (e & -> & _). done. }
  apply loop_open_lookup in Ho as (lp & Hl & Hc).
  destruct (run_async_cases w c timeout)
    as [Ho|[Ho [(d & Hd & Ht)|[(t & -> & Hp & Hmax)|[-> Hd]]]]].
  - destruct timeout as [t|]; [|done].
    by rewrite (run_async_overflow w c l lp Hl Hc t Ho).
  - rewrite (run_async_resolved w c l lp Hl Hc timeout d Hd Ht Ho).
    apply resolve_delay_Some in Hd as [Hd Hp].
    destruct (co_outcome c) as [v0|e0] eqn:Hout.
    { cbn. intros [= <- <-]. left. eauto. }
    destruct (hand_off (Raised e0)) as [| |[v1|e1]] eqn:Hh; cbn; try done.
    { unfold hand_off in Hh.
      destruct (isinstance e0 asyncio_CancelledError); [done|].
      by destruct (stops_loop e0). }
    destruct (isinstance e1 cf_TimeoutError) eqn:Hi; cbn; [|done].
    intros [= <- <-]. right. split_and!; [done..|]. right.
    rewrite (hand_off_timeout e0 e1 Hh Hi) in Hi. eauto 10.
  - rewrite (run_async_timed_out w c l lp Hl Hc t Hp Hmax). cbn.
    intros [= <- <-]. right. split_and!; [done..|]. left. eauto.
  - by rewrite (run_async_never w c l lp Hl Hc Hd).
Qed.

(** ** background_thread_loop: entering and leaving *)

Lemma enter_acquired (w : world) :
  acquisition_fault (w_faults w) = None →
  cm_enter background_thread_loop w = Ret (length (w_loops w)) (acquired w).
Proof.
  unfold acquisition_fault. intros Hf.
  destruct (fault_new_event_loop (w_faults w)) eqn:Hn; [done|].
  unfold cm_enter, background_thread_loop, new_event_loop, Thread, Thread_start.
  munfold. rewrite Hn. cbn. rewrite list_lookup_middle by done. cbn.
  rewrite Hf. cbn. unfold acquired. f_equal. f_equal.
  - rewrite insert_app_r_alt by done. by rewrite Nat.sub_diag.
  - by rewrite <- !app_assoc.
Qed.

Lemma enter_refused (w : world) (e : exn) :
  acquisition_fault (w_faults w) = Some e →
  cm_enter background_thread_loop w = Exc e (refused w).
Proof.
  unfold acquisition_fault, refused. intros Hf.
  unfold cm_enter, background_thread_loop, new_event_loop, Thread, Thread_start.
  munfold.
  destruct (fault_new_event_loop (w_faults w)) eqn:Hn; cbn.
  - by injection Hf as ->.
  - rewrite list_lookup_middle by done. cbn. rewrite Hf.
    f_equal. f_equal. by rewrite <- !app_assoc.
Qed.

Lemma exit_nothing (w : world) (exc : option exn) :
  cm_exit background_thread_loop exc w = Ret false w.
Proof. by destruct exc. Qed.

Lemma acquired_loop (w : world) :
  w_loops (acquired w) !! length (w_loops w) = Some (EventLoop false false []).
Proof. cbn. by apply list_lookup_middle. Qed.

(** ** The scenarios of the specification *)

Example sleep_50_timeout_10 :
  returned (run_async sleep_then_42 0 (Some 10%N) hosted) = Some (PyNone, false).
Proof. reflexivity. Qed.

Example sleep_50_timeout_200 :
  returned (run_async sleep_then_42 0 (Some 200%N) hosted)
    = Some (PyInt 42, true).
Proof. reflexivity. Qed.

Example loop_refused :
  with_ background_thread_loop submit_and_wait no_descriptors =
  Exc (OSError_ "Too many open files") (add_trace Call_new_event_loop no_descriptors).
Proof. reflexivity. Qed.

(** A work item that calls [sys.exit()] stops the loop: its future stays
    pending and the wait runs to the timeout. *)
Example exit_in_the_work :
  returned (run_async exits 0 (Some 10%N) hosted) = Some (PyNone, false) ∧
  w_clock (final (run_async exits 0 (Some 10%N) hosted)) = 10%N.
Proof. split; reflexivity. Qed.

(** ** run_async: the claims *)

(** C1, as stated, fails.  The work item of the scenario completes after
    50 ticks, long before a timeout of ten thousand million seconds would
    elapse; but that timeout is above [threading.TIMEOUT_MAX], the lock
    refuses it, and [run_async] raises [OverflowError] instead of
    returning [(42, True)]. *)
Lemma run_async_far_timeout_overflows :
  loop_open hosted 0 = true ∧
  co_delay sleep_then_42 = Some 50%N ∧
  co_outcome sleep_then_42 = Returned (PyInt 42) ∧
  in_time 50 (Some far_timeout) = true ∧
  returned (run_async sleep_then_42 0 (Some far_timeout) hosted) = None ∧
  raised (run_async sleep_then_42 0 (Some far_timeout) hosted)
    = Some (OverflowError_ "timeout value is too large").
Proof. split_and!; reflexivity. Qed.

(** C1, amended: a work item that completes with value [v] within the
    wait, the timeout being none or no longer than
    [threading.TIMEOUT_MAX], makes [run_async] return [(v, True)]; the
    caller is released at the completion. *)
Theorem run_async_returns_value (w : world) (c : coro) (l : loop_id)
    (timeout : option N) (d : N) (v : pyval) :
  loop_open w l = true →
  wait_accepted w timeout = true →
  co_delay c = Some d → co_outcome c = Returned v →
  in_time d timeout = true →
  ∃ w', run_async c l timeout w = Ret (v, true) w' ∧
        w_clock w' = (w_clock w + d)%N.
Proof.
  intros (lp & Hl & Hc)%loop_open_lookup Ha Hd Ho Ht.
  rewrite (run_async_resolved w c l lp Hl Hc timeout d).
  - rewrite Ho. cbn. eauto.
  - by eapply resolve_delay_returned.
  - done.
  - destruct timeout as [t|]; [|done]. cbn in *.
    apply bool_decide_eq_true in Ha. by rewrite bool_decide_false by lia.
Qed.

Lemma run_async_returns_value_witness :
  ∃ w', run_async sleep_then_42 0 (Some 200%N) hosted = Ret (PyInt 42, true) w' ∧
        w_clock w' = (w_clock hosted + 50)%N.
Proof.
  apply (run_async_returns_value hosted sleep_then_42 0 (Some 200%N) 50
           (PyInt 42)); reflexivity.
Defined.

(** C2, as stated, fails.  A work item that raises, 5 ticks into a wait
    of 10, an exception whose class derives from
    [concurrent.futures.TimeoutError] does not have its failure
    propagated: the [except] clause takes it for a timeout of the wait and
    [run_async] returns [(None, False)]. *)
Lemma run_async_failure_taken_for_timeout :
  loop_open hosted 0 = true ∧
  co_outcome upstream_times_out = Raised UpstreamTimeout ∧
  in_time 5 (Some 10%N) = true ∧
  returned (run_async upstream_times_out 0 (Some 10%N) hosted)
    = Some (PyNone, false) ∧
  ¬ ∃ w', run_async upstream_times_out 0 (Some 10%N) hosted
          = Exc UpstreamTimeout w'.
Proof.
  split_and!; try reflexivity.
  intros [w' H]. vm_compute in H. discriminate H.
Qed.

(** C2, amended: take a work item that fails within the wait, the timeout
    being none or no longer than [threading.TIMEOUT_MAX], with an
    exception that reaches the future as it is (it is no
    [asyncio.CancelledError], [KeyboardInterrupt] or [SystemExit], and its
    class is not exactly [concurrent.futures.CancelledError] or
    [InvalidStateError]).  If the exception is not an instance of
    [concurrent.futures.TimeoutError], that very exception is raised out
    of [run_async]; if it is, the clause written for the wait's timeout
    catches it and [run_async] returns [(None, False)]. *)
Theorem run_async_propagates_failure (w : world) (c : coro) (l : loop_id)
    (timeout : option N) (d : N) (e : exn) :
  loop_open w l = true →
  wait_accepted w timeout = true →
  co_delay c = Some d → co_outcome c = Raised e →
  delivered_unchanged e = true →
  in_time d timeout = true →
  ∃ w', w_clock w' = (w_clock w + d)%N ∧
        run_async c l timeout w =
        if isinstance e cf_TimeoutError then Ret (PyNone, false) w'
        else Exc e w'.
Proof.
  intros (lp & Hl & Hc)%loop_open_lookup Ha Hd Ho He Ht.
  pose proof (convert_delivered e He) as Hh.
  rewrite (run_async_resolved w c l lp Hl Hc timeout d).
  - rewrite Ho, Hh. cbn.
    exists (waited c l lp timeout (w_clock w + d) w). by split.
  - apply resolve_delay_Some. by rewrite Ho, Hh.
  - done.
  - destruct timeout as [t|]; [|done]. cbn in *.
    apply bool_decide_eq_true in Ha. by rewrite bool_decide_false by lia.
Qed.

Lemma run_async_propagates_failure_witness :
  ∃ w', w_clock w' = (w_clock hosted + 5)%N ∧
        run_async rejects_input 0 (Some 10%N) hosted =
        Exc (ValueError_ "bad input") w'.
Proof.
  apply (run_async_propagates_failure hosted rejects_input 0 (Some 10%N) 5
           (ValueError_ "bad input")); reflexivity.
Defined.

(** C3, as stated, fails.  A finite timeout above
    [threading.TIMEOUT_MAX], on a work item that never resolves, does not
    give [(None, False)]: the lock refuses the timeout and [run_async]
    raises [OverflowError] at once. *)
Lemma run_async_far_timeout_no_pair :
  loop_open hosted 0 = true ∧
  pending_after never_ends far_timeout = true ∧
  returned (run_async never_ends 0 (Some far_timeout) hosted) = None ∧
  raised (run_async never_ends 0 (Some far_timeout) hosted)
    = Some (OverflowError_ "timeout value is too large") ∧
  w_clock (final (run_async never_ends 0 (Some far_timeout) hosted))
    = w_clock hosted.
Proof. split_and!; reflexivity. Qed.

(** C3, amended: with a finite timeout [t] no longer than
    [threading.TIMEOUT_MAX], a work item whose future is still unresolved
    when the timeout has elapsed makes [run_async] return
    [(None, False)], as a value and not as an exception, [t] ticks after
    the call. *)
Theorem run_async_timeout_returns_none_false (w : world) (c : coro)
    (l : loop_id) (t : N) :
  loop_open w l = true →
  wait_accepted w (Some t) = true →
  pending_after c t = true →
  ∃ w', run_async c l (Some t) w = Ret (PyNone, false) w' ∧
        w_clock w' = (w_clock w + t)%N.
Proof.
  intros (lp & Hl & Hc)%loop_open_lookup Ha%bool_decide_eq_true Hp.
  rewrite (run_async_timed_out w c l lp Hl Hc t) by done. eauto.
Qed.

Lemma run_async_timeout_returns_none_false_witness :
  ∃ w', run_async sleep_then_42 0 (Some 10%N) hosted = Ret (PyNone, false) w' ∧
        w_clock w' = (w_clock hosted + 10)%N.
Proof.
  apply (run_async_timeout_returns_none_false hosted sleep_then_42 0 10);
    reflexivity.
Defined.

(** C4, as stated, fails.  Without a timeout, the work item that raises
    an instance of [concurrent.futures.TimeoutError] makes [run_async]
    return a pair whose flag is [False]. *)
Lemma run_async_no_timeout_false_flag :
  loop_open hosted 0 = true ∧
  returned (run_async upstream_times_out 0 None hosted) = Some (PyNone, false).
Proof. split; reflexivity. Qed.

(** C4, amended: without a timeout the wait itself never gives up: the
    caller is blocked until the future of the work item resolves, however
    long that takes, and for ever when it never does, which is the case of
    a work item that never ends and of one that ends by a
    [KeyboardInterrupt] or [SystemExit] and so stops the loop.  When the
    future resolves, [d] ticks after the call, the caller is released at
    that time: with [(v, True)] for a value; with
    [concurrent.futures.CancelledError] when the work item was cancelled;
    with the exception the future holds for a failure, but with
    [(None, False)] when that exception is an instance of
    [concurrent.futures.TimeoutError].  In no other case is the flag
    [False]. *)
Theorem run_async_without_timeout (w : world) (c : coro) (l : loop_id) :
  loop_open w l = true →
  match co_delay c, hand_off (co_outcome c) with
  | Some d, Finished (Returned v) =>
      ∃ w', w_clock w' = (w_clock w + d)%N ∧
            run_async c l None w = Ret (v, true) w'
  | Some d, Finished (Raised e) =>
      ∃ w', w_clock w' = (w_clock w + d)%N ∧
            run_async c l None w =
            if isinstance e cf_TimeoutError then Ret (PyNone, false) w'
            else Exc e w'
  | Some d, Cancelled =>
      ∃ w', w_clock w' = (w_clock w + d)%N ∧
            run_async c l None w = Exc CancelledError_ w'
  | _, _ => ∃ w', run_async c l None w = Blocked w'
  end.
Proof.
  intros (lp & Hl & Hc)%loop_open_lookup.
  destruct (resolve_delay c) as [d|] eqn:Hd.
  - pose proof (run_async_resolved w c l lp Hl Hc None d Hd eq_refl eq_refl)
      as Hr.
    apply resolve_delay_Some in Hd as [-> Hp].
    destruct (hand_off (co_outcome c)) as [| |[v|e]]; [done|..];
      exists (waited c l lp None (w_clock w + d) w); by split.
  - pose proof (run_async_never w c l lp Hl Hc Hd) as Hr.
    unfold resolve_delay in Hd.
    destruct (co_delay c) as [d|]; [|by eexists].
    destruct (hand_off (co_outcome c)) as [| |[v|e]]; [by eexists|done..].
Qed.

Lemma run_async_without_timeout_witness :
  ∃ w', w_clock w' = (w_clock hosted + 50)%N ∧
        run_async sleep_then_42 0 None hosted = Ret (PyInt 42, true) w'.
Proof.
  apply (run_async_without_timeout hosted sleep_then_42 0). reflexivity.
Defined.

(** C5: when [run_async] returns on the timeout branch (the timeout is
    one the wait takes and the future is unresolved when it has elapsed),
    the world is the one [run_coroutine_threadsafe] left, but for the
    clock and the logged [Future.result] call: the future is there,
    pending and not cancelled, its callback is on the loop, loops and
    threads are as they were, and no other library call was made.  The
    future is left to the work item: if it ever resolves, its state from
    then on is the one the end of the work item gives it, which
    [run_async] no longer reads. *)
Theorem run_async_timeout_leaves_work (w : world) (c : coro) (l : loop_id)
    (t : N) :
  loop_open w l = true →
  wait_accepted w (Some t) = true →
  pending_after c t = true →
  let f := length (w_futures w) in
  let fu := Future c l (w_clock w) false in
  ∃ w1 w',
    run_coroutine_threadsafe c l w = Ret f w1 ∧
    run_async c l (Some t) w = Ret (PyNone, false) w' ∧
    w_futures w' = w_futures w1 ∧ w_loops w' = w_loops w1 ∧
    w_threads w' = w_threads w1 ∧
    w_trace w' = w_trace w1 ++ [Call_Future_result f (Some t)] ∧
    w_futures w' !! f = Some fu ∧ f ∈ scheduled_on w' l ∧
    future_state (w_clock w') fu = Pending ∧
    ∀ d now, resolve_delay c = Some d → (w_clock w + d ≤ now)%N →
             future_state now fu = hand_off (co_outcome c).
Proof.
  intros (lp & Hl & Hc)%loop_open_lookup Ha%bool_decide_eq_true Hp f fu.
  exists (submitted c l lp w), (waited c l lp (Some t) (w_clock w + t) w).
  split; [by apply run_coroutine_threadsafe_open|].
  split; [by apply run_async_timed_out|].
  split_and!; try done.
  - cbn. by apply list_lookup_middle.
  - rewrite waited_scheduled by done. apply elem_of_app. right. by left.
  - unfold future_state, resolve_time, pending_after in *. cbn.
    destruct (resolve_delay c) as [d|]; [|done].
    apply bool_decide_eq_true in Hp. rewrite bool_decide_false by lia. done.
  - intros d now Hd Hnow. unfold future_state, resolve_time. cbn.
    rewrite Hd. by rewrite bool_decide_true.
Qed.

Lemma run_async_timeout_leaves_work_witness :
  ∃ w1 w',
    run_coroutine_threadsafe sleep_then_42 0 hosted = Ret 0 w1 ∧
    run_async sleep_then_42 0 (Some 10%N) hosted = Ret (PyNone, false) w' ∧
    w_futures w' = w_futures w1 ∧ w_loops w' = w_loops w1 ∧
    w_threads w' = w_threads w1 ∧
    w_futures w' !! 0 = Some (Future sleep_then_42 0 0%N false) ∧
    future_state 50 (Future sleep_then_42 0 0%N false)
      = Finished (Returned (PyInt 42)).
Proof.
  destruct (run_async_timeout_leaves_work hosted sleep_then_42 0 10
              eq_refl eq_refl eq_refl)
    as (w1 & w' & H1 & H2 & H3 & H4 & H5 & _ & H7 & _ & _ & H10).
  exists w1, w'. split_and!; try assumption.
  apply (H10 50%N 50%N); [reflexivity|vm_compute; discriminate].
Defined.

(** ** background_thread_loop: the claims *)

(** C6: an acquisition the system does not refuse allocates one event
    loop, at a handle that was free, and makes and starts one thread, and
    calls nothing else; the value yielded is the handle of that loop,
    which is open.  The thread is a daemon whose target is [run_forever]
    on that loop: its first step sets the loop as the thread's event loop,
    and from then on, however many steps it takes, it is inside the loop's
    [run_forever]. *)
Theorem background_thread_loop_acquires (w : world) :
  acquisition_fault (w_faults w) = None →
  let l := length (w_loops w) in
  let t := length (w_threads w) in
  let th := MkThread (run_forever l) true true in
  ∃ w',
    cm_enter background_thread_loop w = Ret l w' ∧
    w_loops w !! l = None ∧
    w_loops w' = w_loops w ++ [EventLoop false false []] ∧
    w_threads w' = w_threads w ++ [th] ∧
    w_trace w' = w_trace w ++ [Call_new_event_loop;
                               Call_Thread (run_forever l) true;
                               Call_Thread_start t] ∧
    loop_open w' l = true ∧
    th_run th = [SetEventLoop l; LoopRunForever l] ∧
    thread_steps 1 w' (thread_begin th) = ThreadCtx (Some l) [LoopRunForever l] ∧
    ∀ n, thread_steps (S n) w' (thread_begin th)
         = ThreadCtx (Some l) [LoopRunForever l].
Proof.
  intros Hf l t th. exists (acquired w).
  split; [by apply enter_acquired|].
  assert (w_loops (acquired w) !! l = Some (EventLoop false false [])) as Hl
    by (cbn; by apply list_lookup_middle).
  split_and!; try done.
  - by apply lookup_ge_None.
  - unfold loop_open. by rewrite Hl.
  - intros n. apply run_forever_steps. unfold is_stopping. by rewrite Hl.
Qed.

Lemma background_thread_loop_acquires_witness :
  ∃ w',
    cm_enter background_thread_loop empty_world = Ret 0 w' ∧
    w_loops w' = [EventLoop false false []] ∧
    w_threads w' = [MkThread (run_forever 0) true true] ∧
    thread_steps 1000 w' (ThreadCtx None (run_forever 0))
      = ThreadCtx (Some 0) [LoopRunForever 0].
Proof.
  destruct (background_thread_loop_acquires empty_world eq_refl)
    as (w' & He & _ & Hl & Ht & _ & _ & _ & _ & Hn).
  exists w'. split_and!; [exact He|exact Hl|exact Ht|exact (Hn 999)].
Defined.

(** C7: a call of [run_async] on an open loop makes exactly one
    [run_coroutine_threadsafe] call and then one [Future.result] call, in
    that order and nothing else; one future is created and one callback is
    added to the target loop, none to another loop.  With a timeout of
    zero and work that is not already resolved, the call returns
    [(None, False)] without the clock advancing, the work enqueued all
    the same. *)
Theorem run_async_enqueues_once (w : world) (c : coro) (l : loop_id)
    (timeout : option N) :
  loop_open w l = true →
  let f := length (w_futures w) in
  let w' := final (run_async c l timeout w) in
  w_trace w' = w_trace w ++ [Call_run_coroutine_threadsafe c l;
                             Call_Future_result f timeout] ∧
  w_futures w' = w_futures w ++ [Future c l (w_clock w) false] ∧
  scheduled_on w' l = scheduled_on w l ++ [f] ∧
  (∀ l', l' ≠ l → w_loops w' !! l' = w_loops w !! l') ∧
  (timeout = Some 0%N → pending_after c 0 = true →
   run_async c l timeout w = Ret (PyNone, false) w' ∧ w_clock w' = w_clock w).
Proof.
  intros (lp & Hl & Hc)%loop_open_lookup f w'.
  destruct (run_async_final w c l lp Hl Hc timeout) as [n Hn].
  subst w'. rewrite Hn. split_and!.
  - apply waited_trace.
  - done.
  - by apply waited_scheduled.
  - intros l' Hne. cbn. by rewrite list_lookup_insert_ne.
  - intros -> Hp.
    rewrite (run_async_timed_out w c l lp Hl Hc 0 Hp (N.le_0_l _)) in *.
    cbn in Hn. rewrite <- Hn. split; [done|]. cbn. lia.
Qed.

Lemma run_async_enqueues_once_witness :
  w_trace (final (run_async sleep_then_42 0 (Some 0%N) hosted)) =
    w_trace hosted ++ [Call_run_coroutine_threadsafe sleep_then_42 0;
                       Call_Future_result 0 (Some 0%N)] ∧
  scheduled_on (final (run_async sleep_then_42 0 (Some 0%N) hosted)) 0 = [0] ∧
  returned (run_async sleep_then_42 0 (Some 0%N) hosted) = Some (PyNone, false).
Proof.
  destruct (run_async_enqueues_once hosted sleep_then_42 0 (Some 0%N) eq_refl)
    as (Ht & _ & Hs & _ & Hz).
  destruct (Hz eq_refl eq_refl) as [Hr _].
  split; [exact Ht|]. split; [exact Hs|]. rewrite Hr. reflexivity.
Defined.

(** C8: the generator has no code after its [yield].  Leaving the scope,
    normally or on an exception, makes no library call and changes
    nothing: the scope ends exactly as its body ended, in the world the
    body left, so the thread is neither stopped nor joined.  The thread
    was made a daemon: started as it is, it does not keep the process from
    exiting. *)
Theorem background_thread_loop_no_teardown {A : Type} (w : world)
    (body : loop_id → M A) :
  acquisition_fault (w_faults w) = None →
  let l := length (w_loops w) in
  let t := length (w_threads w) in
  ∃ w1 th,
    cm_enter background_thread_loop w = Ret l w1 ∧
    (∀ w2 exc, cm_exit background_thread_loop exc w2 = Ret false w2) ∧
    with_ background_thread_loop body w = (a ← body l; mret (Some a)) w1 ∧
    w_threads w1 !! t = Some th ∧
    th_daemon th = true ∧ th_started th = true ∧ blocks_exit th = false ∧
    process_may_exit w1 = process_may_exit w.
Proof.
  intros Hf l t. exists (acquired w), (MkThread (run_forever l) true true).
  split; [by apply enter_acquired|].
  split_and!; try done.
  - apply exit_nothing.
  - unfold with_. rewrite !bind_unfold, enter_acquired by done.
    subst l. by destruct (body (length (w_loops w)) (acquired w)).
  - cbn. by apply list_lookup_middle.
  - unfold process_may_exit. cbn. rewrite forallb_app. cbn.
    by rewrite andb_true_r.
Qed.

Lemma background_thread_loop_no_teardown_witness :
  ∃ w1 th,
    with_ background_thread_loop submit_and_wait empty_world
      = (a ← submit_and_wait 0; mret (Some a)) w1 ∧
    returned (with_ background_thread_loop submit_and_wait empty_world)
      = Some (Some (PyInt 42, true)) ∧
    w_threads w1 !! 0 = Some th ∧ th_daemon th = true ∧ blocks_exit th = false.
Proof.
  destruct (background_thread_loop_no_teardown empty_world submit_and_wait eq_refl)
    as (w1 & th & _ & _ & Hw & Ht & Hd & _ & Hb & _).
  exists w1, th.
  split_and!; [exact Hw|reflexivity|exact Ht|exact Hd|exact Hb].
Defined.

(** C9: when the system refuses the event loop, or the start of the
    thread, with an exception [e], the acquisition raises [e] itself, and
    so does the [with] statement, whose body never runs.  Each library
    call was made once: the refused call is not repeated, and no thread
    was started. *)
Theorem background_thread_loop_failure {A : Type} (w : world) (e : exn)
    (body : loop_id → M A) :
  acquisition_fault (w_faults w) = Some e →
  let l := length (w_loops w) in
  let t := length (w_threads w) in
  ∃ w',
    cm_enter background_thread_loop w = Exc e w' ∧
    with_ background_thread_loop body w = Exc e w' ∧
    w_trace w' = w_trace w ++
      match fault_new_event_loop (w_faults w) with
      | Some _ => [Call_new_event_loop]
      | None => [Call_new_event_loop; Call_Thread (run_forever l) true;
                 Call_Thread_start t]
      end ∧
    filter (λ th, th_started th = true) (w_threads w')
      = filter (λ th, th_started th = true) (w_threads w).
Proof.
  intros Hf l t. exists (refused w).
  split; [by apply enter_refused|].
  split; [unfold with_; by rewrite bind_unfold, (enter_refused w e)|].
  unfold refused.
  destruct (fault_new_event_loop (w_faults w)); cbn; [done|].
  split; [done|]. rewrite filter_app. cbn. by rewrite app_nil_r.
Qed.

Lemma background_thread_loop_failure_witness :
  ∃ w',
    with_ background_thread_loop submit_and_wait no_threads
      = Exc (RuntimeError_ "can't start new thread") w' ∧
    w_trace w' = [Call_new_event_loop; Call_Thread (run_forever 0) true;
                  Call_Thread_start 0].
Proof.
  destruct (background_thread_loop_failure no_threads
              (RuntimeError_ "can't start new thread") submit_and_wait eq_refl)
    as (w' & _ & Hw & Ht & _).
  exists w'. split; [exact Hw|exact Ht].
Defined.

(** C10, as stated, fails.  A work item that returns [None] after 50
    ticks, waited for with a timeout above [threading.TIMEOUT_MAX], does
    not give [(None, True)]: [run_async] raises [OverflowError]. *)
Lemma run_async_none_far_timeout :
  loop_open hosted 0 = true ∧
  co_outcome sleep_then_none = Returned PyNone ∧
  in_time 50 (Some far_timeout) = true ∧
  returned (run_async sleep_then_none 0 (Some far_timeout) hosted) = None ∧
  raised (run_async sleep_then_none 0 (Some far_timeout) hosted)
    = Some (OverflowError_ "timeout value is too large").
Proof. split_and!; reflexivity. Qed.

(** C10, amended: with timeouts the wait takes (none, or no longer than
    [threading.TIMEOUT_MAX]), a work item that completes with the value
    [None] in time makes [run_async] return [(None, True)]; the same work
    item waited for with a timeout shorter than its delay gives
    [(None, False)].  The two results have the same first component and
    differ in the flag alone. *)
Theorem run_async_none_value (w : world) (l : loop_id) (timeout : option N)
    (d t : N) :
  loop_open w l = true →
  wait_accepted w timeout = true →
  wait_accepted w (Some t) = true →
  in_time d timeout = true →
  (t < d)%N →
  returned (run_async (Coro (Some d) (Returned PyNone)) l timeout w)
    = Some (PyNone, true) ∧
  returned (run_async (Coro (Some d) (Returned PyNone)) l (Some t) w)
    = Some (PyNone, false).
Proof.
  intros (lp & Hl & Hc)%loop_open_lookup Ha Ha'%bool_decide_eq_true Ht Hlt.
  split.
  - rewrite (run_async_resolved w _ l lp Hl Hc timeout d); [done..|].
    destruct timeout as [t'|]; [|done]. cbn in *.
    apply bool_decide_eq_true in Ha. by rewrite bool_decide_false by lia.
  - rewrite (run_async_timed_out w _ l lp Hl Hc t); [done| |done].
    unfold pending_after. cbn. by apply bool_decide_eq_true.
Qed.

Lemma run_async_none_value_witness :
  returned (run_async sleep_then_none 0 (Some 200%N) hosted)
    = Some (PyNone, true) ∧
  returned (run_async sleep_then_none 0 (Some 10%N) hosted)
    = Some (PyNone, false).
Proof.
  apply (run_async_none_value hosted 0 (Some 200%N) 50 10);
    [reflexivity..|lia].
Defined.

(** ** Further properties of run_async *)

(** X1: with a finite timeout [t] that the wait takes, on an open loop,
    [run_async] never blocks for ever: it ends, by a value or an
    exception, when the future of the work resolves or [t] ticks after
    the call, whichever is first. *)
Theorem run_async_bounded_wait (w : world) (c : coro) (l : loop_id) (t : N) :
  loop_open w l = true →
  wait_accepted w (Some t) = true →
  (∀ w', run_async c l (Some t) w ≠ Blocked w') ∧
  w_clock (final (run_async c l (Some t) w)) =
    (w_clock w + match resolve_delay c with
                 | Some d => d `min` t
                 | None => t
                 end)%N.
Proof.
  intros (lp & Hl & Hc)%loop_open_lookup Ha. split.
  - intros w'.
    destruct (run_async_cases w c (Some t))
      as [Ho|[Ho [(d & Hd & Ht)|[(t' & [= <-] & Hp & Hmax)|[[=] _]]]]].
    + by rewrite (run_async_overflow w c l lp Hl Hc t Ho).
    + rewrite (run_async_resolved w c l lp Hl Hc (Some t) d Hd Ht Ho).
      apply after_wait_not_blocked.
    + by rewrite (run_async_timed_out w c l lp Hl Hc t Hp Hmax).
  - rewrite (run_async_final_at w c l lp Hl Hc (Some t)). cbn.
    unfold wait_ticks, overflows. cbn in Ha. apply bool_decide_eq_true in Ha.
    by rewrite bool_decide_false by lia.
Qed.

Lemma run_async_bounded_wait_witness :
  (∀ w', run_async sleep_then_42 0 (Some 10%N) hosted ≠ Blocked w') ∧
  w_clock (final (run_async sleep_then_42 0 (Some 10%N) hosted)) = 10%N.
Proof.
  apply (run_async_bounded_wait hosted sleep_then_42 0 10); reflexivity.
Defined.

(** X2: a pair with the flag [True] always carries the work's own value:
    when [run_async] returns [(v, True)], the work item resolved within
    the wait and [v] is what it returned. *)
Theorem run_async_true_flag (w : world) (c : coro) (l : loop_id)
    (timeout : option N) (v : pyval) :
  returned (run_async c l timeout w) = Some (v, true) →
  ∃ d, co_delay c = Some d ∧ in_time d timeout = true ∧
       co_outcome c = Returned v.
Proof.
  intros [[_ H]|[[=] _]]%run_async_returned_inv. exact H.
Qed.

Lemma run_async_true_flag_witness :
  ∃ d, co_delay sleep_then_42 = Some d ∧ in_time d (Some 200%N) = true ∧
       co_outcome sleep_then_42 = Returned (PyInt 42).
Proof.
  apply (run_async_true_flag hosted sleep_then_42 0 (Some 200%N) (PyInt 42)).
  reflexivity.
Defined.

(** X3: a pair with the flag [False] always has [None] as its first
    component, and it has one of two causes: the timeout elapsed with the
    future of the work still unresolved, or the work failed within the
    wait with an instance of [concurrent.futures.TimeoutError]. *)
Theorem run_async_false_flag (w : world) (c : coro) (l : loop_id)
    (timeout : option N) (v : pyval) :
  returned (run_async c l timeout w) = Some (v, false) →
  v = PyNone ∧
  ((∃ t, timeout = Some t ∧ pending_after c t = true) ∨
   (∃ d e, co_delay c = Some d ∧ in_time d timeout = true ∧
           co_outcome c = Raised e ∧ isinstance e cf_TimeoutError = true)).
Proof.
  intros [[[=] _]|(_ & Hv & H)]%run_async_returned_inv. by split.
Qed.

Lemma run_async_false_flag_witness :
  PyNone = PyNone ∧
  ((∃ t, Some 10%N = Some t ∧ pending_after exits t = true) ∨
   (∃ d e, co_delay exits = Some d ∧ in_time d (Some 10%N) = true ∧
           co_outcome exits = Raised e ∧
           isinstance e cf_TimeoutError = true)).
Proof.
  apply (run_async_false_flag hosted exits 0 (Some 10%N) PyNone).
  reflexivity.
Defined.

(** X4: no exception that comes out of [run_async] is an instance of
    [concurrent.futures.TimeoutError], whatever the loop, the work and the
    timeout: a caller never has to catch that class. *)
Theorem run_async_never_raises_timeout (w : world) (c : coro) (l : loop_id)
    (timeout : option N) (e : exn) :
  raised (run_async c l timeout w) = Some e →
  isinstance e cf_TimeoutError = false.
Proof.
  destruct (loop_open w l) eqn:Ho.
  2:{ destruct (run_async_not_open w c l timeout Ho) as (e' & -> & Hi).
      by intros [= <-]. }
  apply loop_open_lookup in Ho as (lp & Hl & Hc).
  destruct (run_async_cases w c timeout)
    as [Ho|[Ho [(d & Hd & Ht)|[(t & -> & Hp & Hmax)|[-> Hd]]]]].
  - destruct timeout as [t|]; [|done].
    rewrite (run_async_overflow w c l lp Hl Hc t Ho). by intros [= <-].
  - rewrite (run_async_resolved w c l lp Hl Hc timeout d Hd Ht Ho).
    destruct (hand_off (co_outcome c)) as [| |[v|e']]; cbn; try done.
    + by intros [= <-].
    + destruct (isinstance e' cf_TimeoutError) eqn:Hi; [done|].
      by intros [= <-].
  - by rewrite (run_async_timed_out w c l lp Hl Hc t Hp Hmax).
  - by rewrite (run_async_never w c l lp Hl Hc Hd).
Qed.

Lemma run_async_never_raises_timeout_witness :
  isinstance (ValueError_ "bad input") cf_TimeoutError = false.
Proof.
  apply (run_async_never_raises_timeout hosted rejects_input 0 (Some 10%N)).
  reflexivity.
Defined.

(** X5: whatever its loop argument and however it ends, [run_async]
    starts and alters no thread, keeps every future that existed as it
    was, opens, closes or stops no loop, adds no callback to a loop other
    than its target, and never moves the clock back. *)
Theorem run_async_frame (w : world) (c : coro) (l : loop_id)
    (timeout : option N) :
  let w' := final (run_async c l timeout w) in
  w_threads w' = w_threads w ∧
  w_faults w' = w_faults w ∧
  w_futures w `prefix_of` w_futures w' ∧
  length (w_loops w') = length (w_loops w) ∧
  (∀ l', loop_open w' l' = loop_open w l') ∧
  (∀ l', is_stopping w' l' = is_stopping w l') ∧
  (∀ l', l' ≠ l → scheduled_on w' l' = scheduled_on w l') ∧
  (w_clock w ≤ w_clock w')%N.
Proof.
  intros w'. subst w'. destruct (loop_open w l) eqn:Ho.
  2:{ destruct (run_async_not_open w c l timeout Ho) as (e & -> & _). cbn.
      split_and!; done. }
  apply loop_open_lookup in Ho as (lp & Hl & Hc).
  rewrite (run_async_final_at w c l lp Hl Hc timeout).
  split_and!; try done.
  - cbn. by apply prefix_app_r.
  - cbn. by rewrite length_insert.
  - intros l'. unfold loop_open. cbn.
    destruct (decide (l' = l)) as [->|Hne].
    + rewrite list_lookup_insert_eq by (by eapply lookup_lt_Some).
      by rewrite Hl.
    + by rewrite list_lookup_insert_ne.
  - intros l'. unfold is_stopping. cbn.
    destruct (decide (l' = l)) as [->|Hne].
    + rewrite list_lookup_insert_eq by (by eapply lookup_lt_Some).
      by rewrite Hl.
    + by rewrite list_lookup_insert_ne.
  - intros l' Hne. unfold scheduled_on. cbn.
    by rewrite list_lookup_insert_ne.
  - cbn. lia.
Qed.

(** X6: the submission is outside the [try].  On a closed loop
    [run_async] raises the [RuntimeError] of the submission, whatever the
    timeout: it makes no future, adds no callback, does not wait, and does
    not turn the error into [(None, False)]. *)
Theorem run_async_submission_failure (w : world) (c : coro) (l : loop_id)
    (lp : event_loop) (timeout : option N) :
  w_loops w !! l = Some lp → lp_closed lp = true →
  ∃ w',
    run_async c l timeout w = Exc (RuntimeError_ "Event loop is closed") w' ∧
    w_futures w' = w_futures w ∧ w_loops w' = w_loops w ∧
    w_clock w' = w_clock w ∧
    w_trace w' = w_trace w ++ [Call_run_coroutine_threadsafe c l].
Proof.
  intros Hl Hc. exists (add_trace (Call_run_coroutine_threadsafe c l) w).
  split; [|done]. by apply (run_async_closed_loop w c l lp).
Qed.

Lemma run_async_submission_failure_witness :
  ∃ w',
    run_async sleep_then_42 0 (Some 0%N) closed_world =
      Exc (RuntimeError_ "Event loop is closed") w' ∧
    w_futures w' = [] ∧
    w_trace w' = [Call_run_coroutine_threadsafe sleep_then_42 0].
Proof.
  destruct (run_async_submission_failure closed_world sleep_then_42 0
              (EventLoop true false []) (Some 0%N) eq_refl eq_refl)
    as (w' & Hr & Hf & _ & _ & Ht).
  exists w'. split_and!; [exact Hr|exact Hf|exact Ht].
Defined.

(** ** Further properties of background_thread_loop *)

(** X7: two acquisitions, one inside the other, give two loops at
    different handles and two daemon threads, each running its own loop;
    both loops are open, and work submitted to the second adds nothing to
    the first. *)
Theorem background_thread_loop_twice (w : world) :
  acquisition_fault (w_faults w) = None →
  let l := length (w_loops w) in
  ∃ w1 w2,
    cm_enter background_thread_loop w = Ret l w1 ∧
    cm_enter background_thread_loop w1 = Ret (S l) w2 ∧
    w_threads w2 = w_threads w ++ [MkThread (run_forever l) true true;
                                   MkThread (run_forever (S l)) true true] ∧
    loop_open w2 l = true ∧ loop_open w2 (S l) = true ∧
    ∀ c timeout,
      scheduled_on (final (run_async c (S l) timeout w2)) l = scheduled_on w2 l ∧
      scheduled_on (final (run_async c (S l) timeout w2)) (S l)
        = [length (w_futures w)].
Proof.
  intros Hf l. exists (acquired w), (acquired (acquired w)).
  assert (length (w_loops (acquired w)) = S l) as Hlen
    by (cbn; rewrite length_app; cbn; lia).
  assert (w_loops (acquired (acquired w)) !! S l
          = Some (EventLoop false false [])) as H2
    by (rewrite <- Hlen; apply acquired_loop).
  assert (w_loops (acquired (acquired w)) !! l
          = Some (EventLoop false false [])) as H1.
  { cbn. rewrite lookup_app_l by (rewrite length_app; cbn; lia).
    by apply list_lookup_middle. }
  split; [by apply enter_acquired|].
  split; [rewrite <- Hlen; by apply enter_acquired|].
  split_and!.
  - cbn. rewrite length_app. cbn. rewrite <- app_assoc. cbn.
    by rewrite Nat.add_1_r.
  - unfold loop_open. by rewrite H1.
  - unfold loop_open. by rewrite H2.
  - intros c timeout.
    rewrite (run_async_final_at _ c (S l) _ H2 eq_refl timeout). split.
    + unfold scheduled_on. cbn [waited submitted set_clock add_trace w_loops].
      rewrite list_lookup_insert_ne by lia. done.
    + rewrite waited_scheduled by done.
      unfold scheduled_on. by rewrite H2.
Qed.

Lemma background_thread_loop_twice_witness :
  ∃ w1 w2,
    cm_enter background_thread_loop empty_world = Ret 0 w1 ∧
    cm_enter background_thread_loop w1 = Ret 1 w2 ∧
    w_threads w2 = [MkThread (run_forever 0) true true;
                    MkThread (run_forever 1) true true] ∧
    scheduled_on (final (run_async sleep_then_42 1 (Some 10%N) w2)) 0
      = scheduled_on w2 0 ∧
    scheduled_on (final (run_async sleep_then_42 1 (Some 10%N) w2)) 1 = [0].
Proof.
  destruct (background_thread_loop_twice empty_world eq_refl)
    as (w1 & w2 & H1 & H2 & Ht & _ & _ & Hs).
  exists w1, w2. split_and!; [exact H1|exact H2|exact Ht|..].
  - exact (proj1 (Hs sleep_then_42 (Some 10%N))).
  - exact (proj2 (Hs sleep_then_42 (Some 10%N))).
Defined.

(** X8: the handle the scope yields is accepted by [run_async].  In a
    scope the system does not refuse, with a timeout the wait takes, a
    work item that returns [v] within the wait makes the body
    [run_async(coro, loop, timeout)] end the scope with [(v, True)]. *)
Theorem scope_run_async_value (w : world) (c : coro) (timeout : option N)
    (d : N) (v : pyval) :
  acquisition_fault (w_faults w) = None →
  wait_accepted w timeout = true →
  co_delay c = Some d → co_outcome c = Returned v →
  in_time d timeout = true →
  returned (with_ background_thread_loop (λ l, run_async c l timeout) w)
    = Some (Some (v, true)).
Proof.
  intros Hf Ha Hd Ho Ht. unfold with_.
  rewrite bind_unfold, enter_acquired by done.
  rewrite (run_async_resolved _ c _ _ (acquired_loop w) eq_refl timeout d).
  - rewrite Ho. cbn. done.
  - by eapply resolve_delay_returned.
  - done.
  - destruct timeout as [t|]; [|done]. cbn in *.
    apply bool_decide_eq_true in Ha. by rewrite bool_decide_false by lia.
Qed.

Lemma scope_run_async_value_witness :
  returned (with_ background_thread_loop
              (λ l, run_async sleep_then_7 l None) empty_world)
    = Some (Some (PyInt 7, true)).
Proof.
  apply (scope_run_async_value empty_world sleep_then_7 None 20 (PyInt 7));
    reflexivity.
Defined.



(** ** Calls of run_async one after the other *)

(** X10: two calls on the same open loop, the first with a finite
    timeout, leave two futures at consecutive handles and two callbacks
    on the loop in the order of the calls; the loop is still open after
    the first call, and the second future is made when the first call is
    over. *)
Theorem run_async_twice_in_order (w : world) (c1 c2 : coro) (l : loop_id)
    (t1 : N) (timeout2 : option N) :
  loop_open w l = true →
  let f := length (w_futures w) in
  let w1 := final (run_async c1 l (Some t1) w) in
  let w2 := final (run_async c2 l timeout2 w1) in
  loop_open w1 l = true ∧
  (∀ w', run_async c1 l (Some t1) w ≠ Blocked w') ∧
  w_futures w2 = w_futures w ++ [Future c1 l (w_clock w) false;
                                 Future c2 l (w_clock w1) false] ∧
  scheduled_on w2 l = scheduled_on w l ++ [f; S f].
Proof.
  intros (lp & Hl & Hc)%loop_open_lookup f w1 w2.
  assert (w1 = waited c1 l lp (Some t1)
                 (w_clock w + wait_ticks w c1 (Some t1)) w)
    as Hw1 by apply (run_async_final_at w c1 l lp Hl Hc (Some t1)).
  set (lp1 := EventLoop (lp_closed lp) (lp_stopping lp) (lp_scheduled lp ++ [f])).
  assert (w_loops w1 !! l = Some lp1) as Hl1.
  { rewrite Hw1. cbn. apply list_lookup_insert_eq. by eapply lookup_lt_Some. }
  assert (w_futures w1 = w_futures w ++ [Future c1 l (w_clock w) false]) as Hf1
    by (by rewrite Hw1).
  assert (w2 = waited c2 l lp1 timeout2
                 (w_clock w1 + wait_ticks w1 c2 timeout2) w1)
    as Hw2 by apply (run_async_final_at w1 c2 l lp1 Hl1 Hc timeout2).
  split_and!.
  - unfold loop_open. rewrite Hl1. cbn. by rewrite Hc.
  - intros w'.
    destruct (run_async_cases w c1 (Some t1))
      as [Ho|[Ho [(d & Hd & Ht)|[(t' & [= <-] & Hp & Hmax)|[[=] _]]]]].
    + by rewrite (run_async_overflow w c1 l lp Hl Hc t1 Ho).
    + rewrite (run_async_resolved w c1 l lp Hl Hc (Some t1) d Hd Ht Ho).
      apply after_wait_not_blocked.
    + by rewrite (run_async_timed_out w c1 l lp Hl Hc t1 Hp Hmax).
  - rewrite Hw2. cbn. rewrite Hf1. by rewrite <- app_assoc.
  - rewrite Hw2, waited_scheduled by done.
    unfold scheduled_on at 1. rewrite Hl1. cbn. rewrite Hf1, length_app. cbn.
    unfold scheduled_on. rewrite Hl. rewrite <- app_assoc. cbn.
    by rewrite Nat.add_1_r.
Qed.

Lemma run_async_twice_in_order_witness :
  scheduled_on
    (final (run_async sleep_then_7 0 None
              (final (run_async sleep_then_42 0 (Some 10%N) hosted)))) 0
    = [0; 1] ∧
  w_futures
    (final (run_async sleep_then_7 0 None
              (final (run_async sleep_then_42 0 (Some 10%N) hosted))))
    = [Future sleep_then_42 0 0%N false; Future sleep_then_7 0 10%N false].
Proof.
  destruct (run_async_twice_in_order hosted sleep_then_42 sleep_then_7 0 10 None
              eq_refl) as (_ & _ & Hf & Hs).
  split; [exact Hs|exact Hf].
Defined.

(** X11: a longer wait never loses a result.  When [run_async] returns
    [(v, True)] with timeout [t], the same call with a timeout [t' >= t]
    that the wait takes, or with no timeout, returns [(v, True)] too. *)
Theorem run_async_longer_timeout (w : world) (c : coro) (l : loop_id)
    (t t' : N) (v : pyval) :
  returned (run_async c l (Some t) w) = Some (v, true) →
  (t ≤ t')%N →
  wait_accepted w (Some t') = true →
  returned (run_async c l (Some t') w) = Some (v, true) ∧
  returned (run_async c l None w) = Some (v, true).
Proof.
  intros Hr Hle Ha%bool_decide_eq_true.
  destruct (loop_open w l) eqn:Ho.
  2:{ destruct (run_async_not_open w c l (Some t) Ho) as (e & He & _).
      by rewrite He in Hr. }
  apply loop_open_lookup in Ho as (lp & Hl & Hc).
  apply run_async_returned_inv in Hr as [[_ (d & Hd & Ht & Hv)]|[[=] _]].
  cbn in Ht. apply bool_decide_eq_true in Ht.
  pose proof (resolve_delay_returned c d v Hd Hv) as Hrd. split.
  - rewrite (run_async_resolved w c l lp Hl Hc (Some t') d Hrd).
    + by rewrite Hv.
    + cbn. apply bool_decide_eq_true. lia.
    + cbn. by rewrite bool_decide_false by lia.
  - rewrite (run_async_resolved w c l lp Hl Hc None d Hrd) by done.
    by rewrite Hv.
Qed.

Lemma run_async_longer_timeout_witness :
  returned (run_async sleep_then_42 0 (Some 200%N) hosted)
    = Some (PyInt 42, true) ∧
  returned (run_async sleep_then_42 0 None hosted) = Some (PyInt 42, true).
Proof.
  apply (run_async_longer_timeout hosted sleep_then_42 0 50 200 (PyInt 42));
    [reflexivity|lia|reflexivity].
Defined.
